(** * The form-handler façade over react-hook-form, and its field adapter

    A shallow embedding of
      - [useFormHandler], the façade over one [useForm] instance,
      - [withBaseField], the props injected into a wrapped input,
      - [useDemoFormContext], the context read of the demo form,
    followed by the properties the specification states about them.

    The form engine ([useForm] of react-hook-form) and lodash's [isEqual]
    are dependencies, not code of the repository.  The engine is therefore an
    interface ([RHF.FormInstance]) the façade is parametric in; what the
    engine is expected to do is stated separately ([FormInstanceLaws]), and
    a small executable engine ([RefEngine]) inhabits both.

    Objects are references into a heap, so that it can be told whether two
    members are the same object.  What an object holds is plain data: field
    names are plain keys (no dotted paths), field values are primitives or
    records of such values. *)

From stdpp Require Import base gmap strings list.

(** ** JavaScript values *)

Module JS.

(** Object identity: two references are [===] exactly when their
    locations are equal. *)
Definition loc := positive.

(** Values: what a form field, an option flag, an error message or a plain
    prop holds.  A record is plain data, nested to any depth; two records
    with the same members are the same value, whatever the order the members
    were written in. *)
#[warnings="-register-all"]
Inductive jsval :=
| VUndefined
| VNull
| VBool (b : bool)
| VNum (z : Z)
| VStr (s : string)
| VRecord (fields : gmap string jsval).

#[global] Instance jsval_eq_dec : EqDecision jsval.
Proof.
  refine (fix go (x y : jsval) {struct x} : Decision (x = y) :=
    let _ : EqDecision jsval := go in
    match x, y with
    | VUndefined, VUndefined => left _
    | VNull, VNull => left _
    | VBool a, VBool b => cast_if (decide (a = b))
    | VNum a, VNum b => cast_if (decide (a = b))
    | VStr a, VStr b => cast_if (decide (a = b))
    | VRecord a, VRecord b => cast_if (decide (a = b))
    | _, _ => right _
    end); abstract congruence.
Defined.

(** What [typeof] answers. *)
Inductive jstype := TyUndefined | TyObject | TyBoolean | TyNumber | TyString.

#[global] Instance jstype_eq_dec : EqDecision jstype.
Proof. solve_decision. Defined.

(** [v == null], true of [undefined] and of [null] only. *)
Definition is_nullish (v : jsval) : bool :=
  match v with
  | VUndefined | VNull => true
  | _ => false
  end.

(** [a ?? b] *)
Definition nullish_coalesce (a b : jsval) : jsval :=
  if is_nullish a then b else a.

(** Truthiness, as a condition or [!!v] sees a value. *)
Definition truthy (v : jsval) : bool :=
  match v with
  | VUndefined | VNull => false
  | VBool b => b
  | VNum z => negb (z =? 0)%Z
  | VStr s => negb (String.eqb s "")
  | VRecord _ => true
  end.

(** A plain object: its own enumerable properties by key. *)
Abbreviation jsobj := (gmap string jsval).

(** [o[k]]: a missing property reads as [undefined]. *)
Definition get (o : jsobj) (k : string) : jsval := default VUndefined (o !! k).

(** [{ ...base, ...o }]: the properties of [o] win over those of [base];
    spreading [undefined] adds nothing. *)
Definition spread {V} (base : gmap string V) (o : option (gmap string V))
  : gmap string V :=
  match o with
  | Some o => o ∪ base
  | None => base
  end.

(** An optional object argument: omitted, [null], or a reference. *)
Inductive optobj :=
| ArgUndefined
| ArgNull
| ArgObj (l : loc).

End JS.

Import JS.

(** ** The engine: the part of [useForm]'s return value the façade uses *)

Module RHF.

(** [FieldError]: [{ type, message? }]. *)
Record FieldError := { type : string; message : jsval }.

#[global] Instance FieldError_eq_dec : EqDecision FieldError.
Proof. solve_decision. Defined.

(** The members of [formInstance.formState] the façade destructures.
    [defaultValues] and [errors] are references to objects of the engine. *)
Record FormState := {
  defaultValues : loc;
  isValid : bool;
  errors : loc
}.

(** What [getFieldState(name)] returns; [error] is [undefined] ([None])
    for a field without error. *)
Record FieldState := {
  isDirty : bool;
  isTouched : bool;
  invalid : bool;
  error : option FieldError
}.

(** [Path<T> | Array<Path<T>>] *)
Inductive FieldNames :=
| OneName (name : string)
| ManyNames (names : list string).

(** The validation schema, by what it denotes: the errors of a record of
    values, none when it conforms.  [yupResolver] turns it into the
    resolver the engine calls. *)
Definition Schema := jsobj → gmap string FieldError.
Definition yupResolver (schema : Schema) : Schema := schema.

(** A member of the object handed to [useForm]. *)
Inductive PropValue :=
| PVal (v : jsval)
| PObj (l : loc)
| PResolver (r : Schema).

(** The heap before the hook runs: the caller's plain objects. *)
Abbreviation heap := (gmap loc jsobj).

(** One form instance living in a program state [St].  Writes return the
    next state; [getValues] may allocate the object it returns, so it
    returns a state as well.  [values_at] and [errors_at] read the heap of
    a state: the record of values, or of field errors, behind a reference. *)
Class FormInstance (St : Type) := {
  values_at : St → loc → option jsobj;
  errors_at : St → loc → option (gmap string FieldError);
  useForm : gmap string PropValue → heap → St;
  setValue : string → jsval → jsobj → St → St;
  getValues : St → loc * St;
  formState : St → FormState;
  getFieldState : string → St → FieldState;
  clearErrors : option FieldNames → St → St;
  reset : loc → option jsobj → St → St;
  (* a promise of a boolean: the settled value and the state then *)
  trigger : option FieldNames → St → bool * St
}.

End RHF.

(** lodash's [isEqual] on two object references: identical references are
    equal, otherwise what the two objects hold is compared, member by member
    and down into nested records (equality of [jsval] is that comparison). *)
Definition isEqual `{RHF.FormInstance St} (s : St) (a b : loc) : bool :=
  bool_decide (a = b) ||
  match RHF.values_at s a, RHF.values_at s b with
  | Some x, Some y => bool_decide (x = y)
  | _, _ => false
  end.

Section observations.
Context `{RHF.FormInstance St}.

(** The record [getValues()] returns in state [s]. *)
Definition current_values (s : St) : option jsobj :=
  let '(r, s') := RHF.getValues s in RHF.values_at s' r.

(** The record behind [formState.defaultValues] in state [s]. *)
Definition default_values (s : St) : option jsobj :=
  RHF.values_at s (RHF.defaultValues (RHF.formState s)).

(** The record behind [formState.errors] in state [s]. *)
Definition error_state (s : St) : option (gmap string RHF.FieldError) :=
  RHF.errors_at s (RHF.errors (RHF.formState s)).

End observations.

(** Whether an options object sets a flag; no object sets none. *)
Definition keeps (options : option jsobj) (flag : string) : bool :=
  match options with
  | Some o => truthy (get o flag)
  | None => false
  end.

(** What the façade's documentation (the react-hook-form pages it links)
    and the specification expect of the engine, in terms of the interface
    only:
    - [getValues] is a read: the object it returns exists, no other object
      and no form state changes, and asking twice gives the same record;
    - [useForm] starts from the default values it is given, when it is
      given no [values] to follow besides;
    - [setValue] writes the field and leaves the defaults alone; with
      [shouldDirty] it marks the field dirty exactly when the value differs
      from the field's default (the glossary's "dirty"), without it the dirty
      mark is left as it was;
    - [reset] installs the record it is given as values and as default
      values, when the record is not empty and the options keep neither
      values nor default values (given an empty record the engine goes back
      to its previous default values instead);
    - [clearErrors()] leaves no error. *)
Class FormInstanceLaws (St : Type) `{RHF.FormInstance St} : Prop := {
  getValues_allocated (s : St) : is_Some (current_values s);
  getValues_frame (s : St) l o :
    RHF.values_at s l = Some o → RHF.values_at (RHF.getValues s).2 l = Some o;
  getValues_formState (s : St) :
    RHF.formState (RHF.getValues s).2 = RHF.formState s;
  getValues_fieldState (s : St) n :
    RHF.getFieldState n (RHF.getValues s).2 = RHF.getFieldState n s;
  getValues_current (s : St) :
    current_values (RHF.getValues s).2 = current_values s;
  useForm_defaults args (h : RHF.heap) l o :
    args !! "defaultValues" = Some (RHF.PObj l) → h !! l = Some o →
    args !! "values" = None →
    current_values (RHF.useForm args h : St) = Some o
    ∧ default_values (RHF.useForm args h : St) = Some o;
  setValue_current n v cfg (s : St) cv :
    current_values s = Some cv →
    current_values (RHF.setValue n v cfg s) = Some (<[n:=v]> cv);
  setValue_defaults n v cfg (s : St) :
    default_values (RHF.setValue n v cfg s) = default_values s;
  setValue_dirty n v cfg (s : St) dv :
    truthy (get cfg "shouldDirty") = true → default_values s = Some dv →
    RHF.isDirty (RHF.getFieldState n (RHF.setValue n v cfg s))
    = negb (bool_decide (get dv n = v));
  setValue_not_dirty n v cfg (s : St) :
    truthy (get cfg "shouldDirty") = false →
    RHF.isDirty (RHF.getFieldState n (RHF.setValue n v cfg s))
    = RHF.isDirty (RHF.getFieldState n s);
  reset_installs l o (s : St) fv :
    RHF.values_at s l = Some fv → fv ≠ ∅ →
    keeps o "keepValues" = false → keeps o "keepDefaultValues" = false →
    current_values (RHF.reset l o s) = Some fv
    ∧ default_values (RHF.reset l o s) = Some fv;
  clearErrors_all (s : St) : error_state (RHF.clearErrors None s) = Some ∅
}.

(** ** useFormHandler *)

(** [FormHandlerProps]; [onSubmit] and [onError] only reach
    [handleSubmit] and are left out with it. *)
Record FormHandlerProps := {
  props_defaultValues : loc;
  props_mode : jsval;
  props_schema : RHF.Schema;
  props_options : option (gmap string RHF.PropValue)
}.

(** [SetValueProps] *)
Record SetValueProps := {
  name : string;
  value : jsval;
  options : option jsobj
}.

(** What [formState()] returns. *)
Record FormStateView := {
  defaultValues : loc;
  currentState : loc;
  isValid : bool;
  errors : loc;
  hasBeenUpdated : bool
}.

(** [DebugModeState], what [debugMode()] returns. *)
Record DebugModeState := {
  dbg_defaultValues : loc;
  dbg_currentState : loc;
  dbg_isValid : bool;
  dbg_errors : loc;
  dbg_hasBeenUpdated : bool
}.

(** What [fieldState(name)] returns. *)
Record FieldStateView := {
  isDirty : bool;
  isTouched : bool;
  invalid : bool;
  error : jsval
}.

(** The object [useFormHandler] returns: its methods, each over the program
    state. *)
Record FormHandler (St : Type) := {
  setFormValue : SetValueProps → St → St;
  formState : St → FormStateView * St;
  fieldState : string → St → FieldStateView;
  clearErrors : option RHF.FieldNames → St → St;
  resetForm : optobj → option jsobj → St → St;
  triggerValidation : option RHF.FieldNames → St → bool * St;
  debugMode : St → DebugModeState * St
}.

Arguments setFormValue {St} _ _ _.
Arguments formState {St} _ _.
Arguments fieldState {St} _ _ _.
Arguments clearErrors {St} _ _ _.
Arguments resetForm {St} _ _ _ _.
Arguments triggerValidation {St} _ _ _.
Arguments debugMode {St} _ _.

Module UseFormHandler.
Section body.
Context `{RHF.FormInstance St}.
Variable props : FormHandlerProps.

(** The object literal passed to [useForm]:
    [{ defaultValues, mode: props.mode ?? 'onChange', resolver, ...props.options }]. *)
Definition useForm_args : gmap string RHF.PropValue :=
  spread
    {[ "defaultValues" := RHF.PObj (props_defaultValues props);
       "mode" := RHF.PVal (nullish_coalesce (props_mode props) (VStr "onChange"));
       "resolver" := RHF.PResolver (RHF.yupResolver (props_schema props)) ]}
    (props_options props).

Definition formInstance (h : RHF.heap) : St := RHF.useForm useForm_args h.

(** The third argument of [setValue]:
    [{ shouldValidate: true, shouldDirty: true, ...args.options }]. *)
Definition setValue_config (args : SetValueProps) : jsobj :=
  spread {[ "shouldValidate" := VBool true; "shouldDirty" := VBool true ]}
         (options args).

Definition setFormValue (args : SetValueProps) (s : St) : St :=
  RHF.setValue (name args) (value args) (setValue_config args) s.

(** [getValues] is called twice, once for [currentState] and once inside
    [isEqual]; the comparison reads the heap after both calls. *)
Definition formState (s : St) : FormStateView * St :=
  let fs := RHF.formState s in
  let '(cur, s1) := RHF.getValues s in
  let '(cur', s2) := RHF.getValues s1 in
  ({| defaultValues := RHF.defaultValues fs;
      currentState := cur;
      isValid := negb (RHF.isValid fs);
      errors := RHF.errors fs;
      hasBeenUpdated := negb (isEqual s2 (RHF.defaultValues fs) cur') |},
   s2).

(** [error?.message ?? ''] *)
Definition error_message (e : option RHF.FieldError) : jsval :=
  nullish_coalesce
    (match e with
     | Some e => RHF.message e
     | None => VUndefined
     end)
    (VStr "").

Definition fieldState (name : string) (s : St) : FieldStateView :=
  let f := RHF.getFieldState name s in
  {| isDirty := RHF.isDirty f;
     isTouched := RHF.isTouched f;
     invalid := RHF.invalid f;
     error := error_message (RHF.error f) |}.

(** [typeof input] for [input?: Path<T> | Array<Path<T>>]. *)
Definition typeof_names (input : option RHF.FieldNames) : jstype :=
  match input with
  | None => TyUndefined
  | Some (RHF.OneName _) => TyString
  | Some (RHF.ManyNames _) => TyObject
  end.

(** Two independent [if]s, then the call without argument. *)
Definition clearErrors (input : option RHF.FieldNames) (s : St) : St :=
  let s1 := if decide (typeof_names input = TyString)
            then RHF.clearErrors input s else s in
  let s2 := if decide (typeof_names input = TyObject)
            then RHF.clearErrors input s1 else s1 in
  RHF.clearErrors None s2.

(** [values != null] holds of an object, not of [undefined] or [null]. *)
Definition resetForm (values : optobj) (options : option jsobj) (s : St) : St :=
  match values with
  | ArgObj l => RHF.reset l options s
  | _ => RHF.reset (props_defaultValues props) options s
  end.

Definition triggerValidation (input : option RHF.FieldNames) (s : St) : bool * St :=
  if decide (typeof_names input = TyString) then RHF.trigger input s
  else if decide (typeof_names input = TyObject) then RHF.trigger input s
  else RHF.trigger None s.

Definition debugMode (s : St) : DebugModeState * St :=
  let '(st, s') := formState s in
  ({| dbg_defaultValues := defaultValues st;
      dbg_currentState := currentState st;
      dbg_isValid := negb (isValid st);
      dbg_errors := errors st;
      dbg_hasBeenUpdated := hasBeenUpdated st |},
   s').

End body.
End UseFormHandler.

Definition useFormHandler `{RHF.FormInstance St} (props : FormHandlerProps)
  : FormHandler St :=
  {| setFormValue := UseFormHandler.setFormValue;
     formState := UseFormHandler.formState;
     fieldState := UseFormHandler.fieldState;
     clearErrors := UseFormHandler.clearErrors;
     resetForm := UseFormHandler.resetForm props;
     triggerValidation := UseFormHandler.triggerValidation;
     debugMode := UseFormHandler.debugMode |}.

(** ** A reference engine

    An executable form instance, in the settled state after each call (a
    validation pass that the engine runs asynchronously has completed).  It
    follows the engine's documented behaviour for the calls the façade makes;
    it is used to run the façade on concrete forms. *)

Module RefEngine.

(** The values heap and the errors heap hold the objects that can be reached
    from outside; [formValues] is the engine's private record of values.
    [defaults_ref] is [formState.defaultValues]: no object is behind it when
    the form was given no default values ([undefined]), and the engine's own
    default values are then the empty record.  [errors_ref] is
    [formState.errors] as last published; [live_errors] is the engine's own
    errors object, the one it updates in place. *)
Record state := {
  values_heap : gmap loc jsobj;
  errors_heap : gmap loc (gmap string RHF.FieldError);
  defaults_ref : loc;
  formValues : jsobj;
  errors_ref : loc;
  live_errors : loc;
  dirtyFields : gset string;
  touchedFields : gset string;
  valid : bool;
  mode : jsval;
  resolver : RHF.Schema
}.

Definition values_at (s : state) (l : loc) : option jsobj := values_heap s !! l.

Definition errors_at (s : state) (l : loc) : option (gmap string RHF.FieldError) :=
  errors_heap s !! l.

Definition defaults_of (s : state) : jsobj := default ∅ (values_at s (defaults_ref s)).

Definition errors_of (s : state) : gmap string RHF.FieldError :=
  default ∅ (errors_at s (live_errors s)).

(** A location for a new object, distinct from every live one. *)
Definition fresh_values (s : state) : loc :=
  fresh ({[ defaults_ref s ]} ∪ dom (values_heap s)).

Definition fresh_errors (s : state) : loc :=
  fresh ({[ errors_ref s; live_errors s ]} ∪ dom (errors_heap s)).

(** [{ ..._defaultValues, ..._formValues }] *)
Definition all_values (s : state) : jsobj := formValues s ∪ defaults_of s.

(** [getValues()] returns a new object each time. *)
Definition getValues (s : state) : loc * state :=
  let r := fresh_values s in
  (r, {| values_heap := <[r := all_values s]> (values_heap s);
         errors_heap := errors_heap s;
         defaults_ref := defaults_ref s;
         formValues := formValues s;
         errors_ref := errors_ref s;
         live_errors := live_errors s;
         dirtyFields := dirtyFields s;
         touchedFields := touchedFields s;
         valid := valid s;
         mode := mode s;
         resolver := resolver s |}).

Definition formState (s : state) : RHF.FormState :=
  {| RHF.defaultValues := defaults_ref s;
     RHF.isValid := valid s;
     RHF.errors := errors_ref s |}.

(** [getFieldState(name)] reads the engine's own errors object. *)
Definition getFieldState (n : string) (s : state) : RHF.FieldState :=
  {| RHF.isDirty := bool_decide (n ∈ dirtyFields s);
     RHF.isTouched := bool_decide (n ∈ touchedFields s);
     RHF.invalid := bool_decide (is_Some (errors_of s !! n));
     RHF.error := errors_of s !! n |}.

(** The entry of [n] is set to the error found for it, or removed. *)
Definition put_error (found : gmap string RHF.FieldError) (n : string)
    (errs : gmap string RHF.FieldError) : gmap string RHF.FieldError :=
  match found !! n with
  | Some e => <[n := e]> errs
  | None => delete n errs
  end.

(** The engine's own errors object is updated in place, and is the object
    published as [formState.errors] from then on. *)
Definition with_errors (s : state) (errs : gmap string RHF.FieldError)
    (ok : bool) : state :=
  {| values_heap := values_heap s;
     errors_heap := <[live_errors s := errs]> (errors_heap s);
     defaults_ref := defaults_ref s;
     formValues := formValues s;
     errors_ref := live_errors s;
     live_errors := live_errors s;
     dirtyFields := dirtyFields s;
     touchedFields := touchedFields s;
     valid := ok;
     mode := mode s;
     resolver := resolver s |}.

(** A new, empty or given, errors object replaces the engine's own and is
    published. *)
Definition replace_errors (s : state) (errs : gmap string RHF.FieldError)
    (ok : bool) : state :=
  let e := fresh_errors s in
  {| values_heap := values_heap s;
     errors_heap := <[e := errs]> (errors_heap s);
     defaults_ref := defaults_ref s;
     formValues := formValues s;
     errors_ref := e;
     live_errors := e;
     dirtyFields := dirtyFields s;
     touchedFields := touchedFields s;
     valid := ok;
     mode := mode s;
     resolver := resolver s |}.

Definition validate_field (n : string) (s : state) : state :=
  let found := resolver s (all_values s) in
  with_errors s (put_error found n (errors_of s)) (bool_decide (found = ∅)).

Definition setValue (n : string) (v : jsval) (cfg : jsobj) (s : state) : state :=
  let pristine := bool_decide (get (defaults_of s) n = v) in
  let s1 :=
    {| values_heap := values_heap s;
       errors_heap := errors_heap s;
       defaults_ref := defaults_ref s;
       formValues := <[n := v]> (formValues s);
       errors_ref := errors_ref s;
       live_errors := live_errors s;
       dirtyFields :=
         if truthy (get cfg "shouldDirty")
         then (if pristine then dirtyFields s ∖ {[ n ]} else {[ n ]} ∪ dirtyFields s)
         else dirtyFields s;
       touchedFields :=
         if truthy (get cfg "shouldTouch")
         then {[ n ]} ∪ touchedFields s else touchedFields s;
       valid := valid s;
       mode := mode s;
       resolver := resolver s |} in
  if truthy (get cfg "shouldValidate") then validate_field n s1 else s1.

(** The names a call addresses, when its argument is truthy. *)
Definition addressed (input : option RHF.FieldNames) : option (list string) :=
  match input with
  | None => None
  | Some (RHF.OneName n) => if String.eqb n "" then None else Some [n]
  | Some (RHF.ManyNames ns) => Some ns
  end.

Definition clearErrors (input : option RHF.FieldNames) (s : state) : state :=
  match addressed input with
  | Some ns => with_errors s (foldr delete (errors_of s) ns) (valid s)
  | None => replace_errors s ∅ (valid s)
  end.

Definition trigger (input : option RHF.FieldNames) (s : state) : bool * state :=
  let found := resolver s (all_values s) in
  match addressed input with
  | Some ns =>
      (forallb (λ n, bool_decide (found !! n = None)) ns,
       with_errors s (foldr (put_error found) (errors_of s) ns)
                   (bool_decide (found = ∅)))
  | None =>
      (bool_decide (found = ∅), replace_errors s found (bool_decide (found = ∅)))
  end.

(** The fields in which two records differ. *)
Definition differing (a b : jsobj) : gset string :=
  filter (λ k, get a k ≠ get b k) (dom a ∪ dom b).

(** [reset(values, keepStateOptions)], for a form none of whose fields is
    registered (the façade never registers one, so [keepDirtyValues] finds
    no field whose value to keep).
    - Default values: the given record, unless [keepDefaultValues].
    - Values: kept with [keepValues]; otherwise the given record, or the
      previous default values when the given record is empty.
    - Dirty marks: none, except that with [keepDefaultValues] the fields
      that differ from the kept defaults are dirty, and with
      [keepDirtyValues] alone the marks stay; [keepDirty] keeps the form's
      flag, not the marks.
    - Touched marks and errors are dropped unless kept. *)
Definition reset (l : loc) (o : option jsobj) (s : state) : state :=
  let given := default ∅ (values_at s l) in
  let empty := bool_decide (given = ∅) in
  let d := fresh_values s in
  let e := fresh_errors s in
  let keepDefaults := keeps o "keepDefaultValues" in
  let keepErrors := keeps o "keepErrors" in
  let vals :=
    if keeps o "keepValues" then formValues s
    else if empty then defaults_of s
    else given in
  let defaults := if keepDefaults then defaults_of s else given in
  {| values_heap :=
       if keepDefaults then values_heap s else <[d := given]> (values_heap s);
     errors_heap :=
       if keepErrors then errors_heap s else <[e := ∅]> (errors_heap s);
     defaults_ref := if keepDefaults then defaults_ref s else d;
     formValues := vals;
     errors_ref := if keepErrors then live_errors s else e;
     live_errors := if keepErrors then live_errors s else e;
     dirtyFields :=
       if empty then ∅
       else if keeps o "keepDirtyValues"
            then (if keepDefaults then differing (defaults_of s) vals
                  else dirtyFields s)
            else (if keepDefaults then differing (defaults_of s) given
                  else ∅);
     touchedFields := if keeps o "keepTouched" then touchedFields s else ∅;
     valid :=
       if keeps o "keepIsValid" then valid s
       else bool_decide (resolver s (vals ∪ defaults) = ∅);
     mode := mode s;
     resolver := resolver s |}.

(** [useForm(props)], for props without [values].  The default values, when
    they are an object, are cloned; otherwise [formState.defaultValues] is
    [undefined] and the form starts empty.  Nothing is dirty, touched or in error yet.  The errors
    object published at first is not the engine's own: it stays empty, and a
    later update publishes the engine's. *)
Definition useForm (args : gmap string RHF.PropValue) (h : RHF.heap) : state :=
  let given : option jsobj :=
    match args !! "defaultValues" with
    | Some (RHF.PObj l) => h !! l
    | Some (RHF.PVal (VRecord r)) => Some r
    | _ => None
    end in
  let r : RHF.Schema :=
    match args !! "resolver" with
    | Some (RHF.PResolver r) => r
    | _ => λ _, ∅
    end in
  let d := fresh (dom h) in
  {| values_heap :=
       match given with
       | Some o => <[d := o]> h
       | None => h
       end;
     errors_heap := {[ 1%positive := ∅; 2%positive := ∅ ]};
     defaults_ref := d;
     formValues := default ∅ given;
     errors_ref := 1%positive;
     live_errors := 2%positive;
     dirtyFields := ∅;
     touchedFields := ∅;
     valid := bool_decide (r (default ∅ given) = ∅);
     mode :=
       match args !! "mode" with
       | Some (RHF.PVal m) => m
       | _ => VUndefined
       end;
     resolver := r |}.

#[global] Instance instance : RHF.FormInstance state :=
  {| RHF.values_at := values_at;
     RHF.errors_at := errors_at;
     RHF.useForm := useForm;
     RHF.setValue := setValue;
     RHF.getValues := getValues;
     RHF.formState := formState;
     RHF.getFieldState := getFieldState;
     RHF.clearErrors := clearErrors;
     RHF.reset := reset;
     RHF.trigger := trigger |}.

End RefEngine.

(** ** The demo form of the hook's documentation *)

Module Demo.

(** [{ name: '', lastName: '' }], the caller's default values. *)
Definition defaultValues : jsobj :=
  {[ "name" := VStr ""; "lastName" := VStr "" ]}.

(** Values a caller resets the form to. *)
Definition customValues : jsobj :=
  {[ "name" := VStr "Grace"; "lastName" := VStr "Hopper" ]}.

(** The caller's heap: the default values at location 1, the custom values
    at location 2. *)
Definition heap0 : RHF.heap :=
  {[ 1%positive := defaultValues; 2%positive := customValues ]}.

Definition required : RHF.FieldError :=
  {| RHF.type := "required"; RHF.message := VStr "This field is required" |}.

(** [yup.string().required('This field is required')] on both fields. *)
Definition schema : RHF.Schema := λ values,
  (if truthy (get values "name") then ∅ else {[ "name" := required ]})
  ∪ (if truthy (get values "lastName") then ∅ else {[ "lastName" := required ]}).

Definition props : FormHandlerProps :=
  {| props_defaultValues := 1%positive;
     props_mode := VUndefined;
     props_schema := schema;
     props_options := None |}.

Definition formHandler : FormHandler RefEngine.state := useFormHandler props.

(** The state right after [useFormHandler(props)]. *)
Definition s0 : RefEngine.state := UseFormHandler.formInstance props heap0.

(** [setFormValue({ name: 'name', value: 'Ada' })] *)
Definition ada : SetValueProps :=
  {| name := "name"; value := VStr "Ada"; options := None |}.

(** [setFormValue({ name: 'name', value: '' })]: the default value again,
    which the schema rejects. *)
Definition blank : SetValueProps :=
  {| name := "name"; value := VStr ""; options := None |}.


End Demo.


(** ** withBaseField *)

Module WithBaseField.

(** The members of [BaseFieldProps] the wrapper reads; [formhandler] is
    optional.  They are read as [Props.name props], [Props.error props]. *)
Module Props.

Record BaseFieldProps (St : Type) := {
  name : string;
  formhandler : option (FormHandler St);
  error : jsval;
  helperText : jsval
}.

Arguments name {St} _.
Arguments formhandler {St} _.
Arguments error {St} _.
Arguments helperText {St} _.

End Props.

Abbreviation BaseFieldProps := Props.BaseFieldProps.

(** What [useWithBaseFieldHelper(props)] returns.  The helper is not among
    the sources; the wrapper only passes its results on, so it is a
    parameter of the wrapper here. *)
Record Helper (St : Type) := {
  setInitialValue : St → St;
  value : jsval;
  handleBlur : jsval → St → St;
  handleChange : jsval → St → St
}.

Arguments setInitialValue {St} _ _.
Arguments value {St} _.
Arguments handleBlur {St} _ _ _.
Arguments handleChange {St} _ _ _.

(** The props the wrapped component is rendered with: [{...props}] first,
    then the five injected ones. *)
Record Injected (St : Type) := {
  passed : BaseFieldProps St;
  inj_onChange : jsval → St → St;
  inj_onBlur : jsval → St → St;
  inj_value : jsval;
  inj_error : jsval;
  inj_helperText : jsval
}.

Arguments passed {St} _.
Arguments inj_onChange {St} _ _ _.
Arguments inj_onBlur {St} _ _ _.
Arguments inj_value {St} _.
Arguments inj_error {St} _.
Arguments inj_helperText {St} _.

Section wrapper.
Context {St : Type}.
Variable useWithBaseFieldHelper : BaseFieldProps St → St → Helper St * St.

(** [props.formhandler?.formState().currentState], the dependency of the
    effect, evaluated while rendering. *)
Definition effect_dependency (props : BaseFieldProps St) (s : St)
    : option loc * St :=
  match Props.formhandler props with
  | Some fh => let '(st, s') := formState fh s in (Some (currentState st), s')
  | None => (None, s)
  end.

(** [props.formhandler?.fieldState(props.name).invalid ?? props.error] *)
Definition resolve_error (props : BaseFieldProps St) (s : St) : jsval :=
  nullish_coalesce
    (match Props.formhandler props with
     | Some fh => VBool (invalid (fieldState fh (Props.name props) s))
     | None => VUndefined
     end)
    (Props.error props).

(** [props.formhandler?.fieldState(props.name).error ?? props.helperText] *)
Definition resolve_helperText (props : BaseFieldProps St) (s : St) : jsval :=
  nullish_coalesce
    (match Props.formhandler props with
     | Some fh => error (fieldState fh (Props.name props) s)
     | None => VUndefined
     end)
    (Props.helperText props).

(** One render: the helper runs, the effect's dependency is evaluated, the
    injected props are computed.  The state returned is the one the props
    were computed in. *)
Definition WithFormHandlerField (props : BaseFieldProps St) (s : St)
    : Injected St * St :=
  let '(h, s1) := useWithBaseFieldHelper props s in
  let '(_, s2) := effect_dependency props s1 in
  ({| passed := props;
      inj_onChange := handleChange h;
      inj_onBlur := handleBlur h;
      inj_value := value h;
      inj_error := resolve_error props s2;
      inj_helperText := resolve_helperText props s2 |},
   s2).

End wrapper.

Definition withBaseField {St : Type}
    (useWithBaseFieldHelper : BaseFieldProps St → St → Helper St * St)
    : BaseFieldProps St → St → Injected St * St :=
  WithFormHandlerField useWithBaseFieldHelper.

End WithBaseField.

(** ** The demo form's context (views/demo-form/providers) *)

Module React.

(** [createContext(defaultValue)] *)
Record Context (A : Type) := createContext { defaultValue : A }.

Arguments createContext {A} _.
Arguments defaultValue {A} _.

(** [useContext(ctx)] in a component rendered below the given providers of
    [ctx], the nearest first: the nearest provider's value, or the default
    value of the context when there is none. *)
Definition useContext {A} (ctx : Context A) (providers : list A) : A :=
  match providers with
  | v :: _ => v
  | [] => defaultValue ctx
  end.

End React.

Module DemoFormContextProvider.
Section context.
Context {St : Type}.

(** A member of a [FormContext] object. *)
Inductive Member :=
| MFormHandler (h : FormHandler St)
| MMode (m : string).

(** A [FormContext] value at run time: an object, read by member name; a
    member that is not there reads as [undefined] ([None]). *)
Definition FormContext := gmap string Member.

(** [createContext<FormContext<DemoFormSchema>>({} as any)] *)
Definition DemoFormContext : React.Context FormContext :=
  React.createContext ∅.

Definition useDemoFormContext (providers : list FormContext) : FormContext :=
  React.useContext DemoFormContext providers.

(** The value the provider publishes: [{ formHandler, mode }]. *)
Definition contextValue (h : FormHandler St) (m : string) : FormContext :=
  {[ "formHandler" := MFormHandler h; "mode" := MMode m ]}.

(** [<DemoFormContext.Provider value={contextValue}>{children}</...>]:
    the children are rendered below one more provider. *)
Definition DemoFormContextProvider (value : FormContext)
    (providers : list FormContext) : list FormContext :=
  value :: providers.

End context.
End DemoFormContextProvider.

(** ** More runs of the demo form *)

Module DemoVariants.

(** The demo form's props with [options: { defaultValues: customValues }]:
    the spread of [props.options] comes last in the object handed to
    [useForm]. *)
Definition props_with_own_defaults : FormHandlerProps :=
  {| props_defaultValues := 1%positive;
     props_mode := VUndefined;
     props_schema := Demo.schema;
     props_options := Some {[ "defaultValues" := RHF.PObj 2%positive ]} |}.

(** [setFormValue({ name: 'name', value: 'Ada', options: { shouldDirty: undefined } })] *)
Definition ada_undefined_flag : SetValueProps :=
  {| name := "name"; value := VStr "Ada";
     options := Some {[ "shouldDirty" := VUndefined ]} |}.


(** The caller's heap of the demo form, with two more records: an empty one
    at location 3 and one that has only a name at location 4. *)
Definition heap1 : RHF.heap :=
  {[ 1%positive := Demo.defaultValues;
     2%positive := Demo.customValues;
     3%positive := ∅;
     4%positive := {[ "name" := VStr "Grace" ]} ]}.

(** The demo form constructed over that heap. *)
Definition s1 : RefEngine.state := UseFormHandler.formInstance Demo.props heap1.








(** A helper to run the wrapper with (the repository's own is not among the
    sources): it shows no value and forwards a change to the form handler. *)
Definition helper (props : WithBaseField.BaseFieldProps RefEngine.state)
    (s : RefEngine.state)
    : WithBaseField.Helper RefEngine.state * RefEngine.state :=
  ({| WithBaseField.setInitialValue := λ s, s;
      WithBaseField.value := VUndefined;
      WithBaseField.handleBlur := λ _ s, s;
      WithBaseField.handleChange := λ v s,
        match WithBaseField.Props.formhandler props with
        | Some fh =>
            setFormValue fh
              {| name := WithBaseField.Props.name props; value := v;
                 options := None |} s
        | None => s
        end |},
   s).

(** The [name] field of the demo form, with the form handler attached. *)
Definition name_field : WithBaseField.BaseFieldProps RefEngine.state :=
  {| WithBaseField.Props.name := "name";
     WithBaseField.Props.formhandler := Some Demo.formHandler;
     WithBaseField.Props.error := VUndefined;
     WithBaseField.Props.helperText := VStr "Your first name" |}.

End DemoVariants.

(** * Properties *)

(** ** The reference engine meets the engine laws *)

Module RefEngineFacts.
Import RefEngine.

(** Rewrites the interface's operations into the reference engine's. *)
Ltac engine :=
  cbn [RHF.values_at RHF.errors_at RHF.useForm RHF.setValue RHF.getValues
       RHF.formState RHF.getFieldState RHF.clearErrors RHF.reset RHF.trigger
       instance] in *.

Lemma fresh_values_unused (s : state) :
  values_heap s !! fresh_values s = None ∧ fresh_values s ≠ defaults_ref s.
Proof.
  pose proof (is_fresh ({[ defaults_ref s ]} ∪ dom (values_heap s))) as Hf.
  fold (fresh_values s) in Hf. split.
  - apply not_elem_of_dom. set_solver.
  - set_solver.
Qed.

Lemma fresh_errors_unused (s : state) :
  errors_heap s !! fresh_errors s = None
  ∧ fresh_errors s ≠ errors_ref s
  ∧ fresh_errors s ≠ live_errors s.
Proof.
  pose proof (is_fresh ({[ errors_ref s; live_errors s ]}
                        ∪ dom (errors_heap s))) as Hf.
  fold (fresh_errors s) in Hf. split; [| split].
  - apply not_elem_of_dom. set_solver.
  - set_solver.
  - set_solver.
Qed.

Lemma current_values_eq (s : state) :
  current_values s = Some (all_values s).
Proof.
  unfold current_values. cbn. unfold values_at. cbn.
  by rewrite lookup_insert_eq.
Qed.

Lemma default_values_eq (s : state) :
  default_values s = values_heap s !! defaults_ref s.
Proof. reflexivity. Qed.

Lemma defaults_of_getValues (s : state) :
  defaults_of (getValues s).2 = defaults_of s.
Proof.
  unfold defaults_of, values_at. cbn.
  destruct (fresh_values_unused s) as [_ Hne].
  by rewrite lookup_insert_ne.
Qed.

Lemma validate_field_values n (s : state) :
  values_heap (validate_field n s) = values_heap s
  ∧ defaults_ref (validate_field n s) = defaults_ref s
  ∧ formValues (validate_field n s) = formValues s
  ∧ dirtyFields (validate_field n s) = dirtyFields s.
Proof. done. Qed.

Lemma setValue_values n v cfg (s : state) :
  values_heap (setValue n v cfg s) = values_heap s
  ∧ defaults_ref (setValue n v cfg s) = defaults_ref s
  ∧ formValues (setValue n v cfg s) = <[n := v]> (formValues s).
Proof. unfold setValue. by destruct (truthy (get cfg "shouldValidate")). Qed.

Lemma setValue_dirtyFields n v cfg (s : state) :
  dirtyFields (setValue n v cfg s) =
  if truthy (get cfg "shouldDirty")
  then (if bool_decide (get (defaults_of s) n = v)
        then dirtyFields s ∖ {[ n ]} else {[ n ]} ∪ dirtyFields s)
  else dirtyFields s.
Proof. unfold setValue. by destruct (truthy (get cfg "shouldValidate")). Qed.

#[global] Instance laws : FormInstanceLaws state.
Proof.
  split.
  - intros s. rewrite current_values_eq. by eexists.
  - intros s l o Hl. cbn. unfold values_at in *. cbn.
    destruct (fresh_values_unused s) as [Hnone _].
    change (values_heap s !! l = Some o) in Hl.
    rewrite lookup_insert_ne; [done | intros Heq; rewrite Heq in Hnone; congruence].
  - done.
  - done.
  - intros s. rewrite !current_values_eq. f_equal.
    unfold all_values. by rewrite defaults_of_getValues.
  - intros args h l o Hargs Hl _. rewrite current_values_eq, default_values_eq.
    unfold all_values, defaults_of, values_at. cbn. unfold useForm.
    rewrite Hargs, Hl. cbn. rewrite lookup_insert_eq. cbn.
    by rewrite (idemp (∪) o).
  - intros n v cfg s cv. rewrite !current_values_eq. intros [= <-]. f_equal.
    engine. unfold all_values, defaults_of, values_at.
    destruct (setValue_values n v cfg s) as (-> & -> & ->).
    by rewrite insert_union_l.
  - intros n v cfg s. rewrite !default_values_eq. engine.
    by destruct (setValue_values n v cfg s) as (-> & -> & _).
  - intros n v cfg s dv Hd Hdv. rewrite default_values_eq in Hdv. engine.
    unfold getFieldState. cbn [RHF.isDirty]. rewrite setValue_dirtyFields, Hd.
    unfold defaults_of, values_at. rewrite Hdv. cbn.
    destruct (bool_decide (get dv n = v)); cbn.
    + apply bool_decide_eq_false. rewrite elem_of_difference, elem_of_singleton.
      tauto.
    + apply bool_decide_eq_true. rewrite elem_of_union, elem_of_singleton.
      tauto.
  - intros n v cfg s Hd. engine. unfold getFieldState. cbn [RHF.isDirty].
    by rewrite setValue_dirtyFields, Hd.
  - intros l o s fv Hl Hne Hv Hdf. rewrite current_values_eq, default_values_eq.
    engine. unfold all_values, defaults_of, values_at, reset in *. cbn.
    rewrite Hv, Hdf. unfold values_at. rewrite Hl. cbn.
    rewrite bool_decide_eq_false_2 by done.
    rewrite lookup_insert_eq. cbn. by rewrite (idemp (∪) fv).
  - intros s. unfold error_state. cbn. unfold errors_at, clearErrors. cbn.
    by rewrite lookup_insert_eq.
Qed.

End RefEngineFacts.

(** ** The façade over any engine *)

Section facade.
Context `{RHF.FormInstance St}.
Variable props : FormHandlerProps.

(** [formState()] with its two [getValues()] calls named. *)
Lemma formState_eq (s : St) :
  formState (useFormHandler props) s =
  let g1 := RHF.getValues s in
  let g2 := RHF.getValues g1.2 in
  let fs := RHF.formState s in
  ({| defaultValues := RHF.defaultValues fs;
      currentState := g1.1;
      isValid := negb (RHF.isValid fs);
      errors := RHF.errors fs;
      hasBeenUpdated := negb (isEqual g2.2 (RHF.defaultValues fs) g2.1) |},
   g2.2).
Proof.
  cbn. unfold UseFormHandler.formState.
  destruct (RHF.getValues s) as [cur s1]. cbn.
  by destruct (RHF.getValues s1) as [cur' s2].
Qed.

Lemma debugMode_eq (s : St) :
  debugMode (useFormHandler props) s =
  let r := formState (useFormHandler props) s in
  ({| dbg_defaultValues := defaultValues r.1;
      dbg_currentState := currentState r.1;
      dbg_isValid := negb (isValid r.1);
      dbg_errors := errors r.1;
      dbg_hasBeenUpdated := hasBeenUpdated r.1 |},
   r.2).
Proof.
  cbn. unfold UseFormHandler.debugMode.
  by destruct (UseFormHandler.formState s) as [st s'].
Qed.

Lemma error_message_not_nullish (e : option RHF.FieldError) :
  is_nullish (UseFormHandler.error_message e) = false.
Proof.
  unfold UseFormHandler.error_message, nullish_coalesce.
  destruct e as [[t m]|]; [by destruct m | done].
Qed.

(** C1: [formState()] exposes the engine's validity flag negated, so
    [isValid] is true exactly when the engine says the form is not valid; the
    other members are the engine's default values, what [getValues()]
    returns, and the engine's errors. *)
Theorem formState_isValid_negated (s : St) :
  let st := (formState (useFormHandler props) s).1 in
  isValid st = negb (RHF.isValid (RHF.formState s))
  ∧ (isValid st = true ↔ RHF.isValid (RHF.formState s) = false)
  ∧ defaultValues st = RHF.defaultValues (RHF.formState s)
  ∧ currentState st = (RHF.getValues s).1
  ∧ errors st = RHF.errors (RHF.formState s).
Proof.
  rewrite formState_eq. cbn.
  repeat split; try done; by destruct (RHF.isValid (RHF.formState s)).
Qed.

(** C9: [debugMode()] negates the flag [formState()] already negated, so it
    reports the engine's own validity flag, and the two operations never
    agree on [isValid]. *)
Theorem debugMode_isValid_is_engine_flag (s : St) :
  let dbg := (debugMode (useFormHandler props) s).1 in
  let st := (formState (useFormHandler props) s).1 in
  dbg_isValid dbg = negb (isValid st)
  ∧ dbg_isValid dbg = RHF.isValid (RHF.formState s)
  ∧ dbg_isValid dbg ≠ isValid st.
Proof.
  rewrite debugMode_eq, formState_eq. cbn.
  by destruct (RHF.isValid (RHF.formState s)).
Qed.

(** C3, as the code has it: [debugMode()] builds a new record of the shape
    of [formState()]'s, but copies nothing below it.  Its [defaultValues] and
    [errors] are the engine's own references, its [currentState] is the
    reference [getValues()] returned, [hasBeenUpdated] is the same flag and
    [isValid] the flag negated once more; the state it leaves is the one
    [formState()] leaves. *)
Theorem debugMode_shares_references (s : St) :
  let dbg := debugMode (useFormHandler props) s in
  let st := formState (useFormHandler props) s in
  dbg.2 = st.2
  ∧ dbg_defaultValues dbg.1 = defaultValues st.1
  ∧ dbg_defaultValues dbg.1 = RHF.defaultValues (RHF.formState s)
  ∧ dbg_errors dbg.1 = errors st.1
  ∧ dbg_errors dbg.1 = RHF.errors (RHF.formState s)
  ∧ dbg_currentState dbg.1 = currentState st.1
  ∧ dbg_currentState dbg.1 = (RHF.getValues s).1
  ∧ dbg_hasBeenUpdated dbg.1 = hasBeenUpdated st.1
  ∧ dbg_isValid dbg.1 = negb (isValid st.1).
Proof. rewrite debugMode_eq, formState_eq. by cbn. Qed.

(** C7: [fieldState(name)] passes the engine's dirty, touched and invalid
    flags through; its [error] is the engine's error message when there is
    one, and the empty string when the field has no error or the error has no
    message: it is never [undefined] or [null]. *)
Theorem fieldState_error_normalized (n : string) (s : St) :
  let f := fieldState (useFormHandler props) n s in
  let e := RHF.getFieldState n s in
  isDirty f = RHF.isDirty e
  ∧ isTouched f = RHF.isTouched e
  ∧ invalid f = RHF.invalid e
  ∧ error f = match RHF.error e with
              | Some err =>
                  if is_nullish (RHF.message err) then VStr ""
                  else RHF.message err
              | None => VStr ""
              end
  ∧ error f ≠ VUndefined
  ∧ error f ≠ VNull.
Proof.
  cbn. repeat split.
  - unfold UseFormHandler.error_message, nullish_coalesce.
    by destruct (RHF.error (RHF.getFieldState n s)).
  - intros Heq.
    pose proof (error_message_not_nullish (RHF.error (RHF.getFieldState n s))) as Hn.
    by rewrite Heq in Hn.
  - intros Heq.
    pose proof (error_message_not_nullish (RHF.error (RHF.getFieldState n s))) as Hn.
    by rewrite Heq in Hn.
Qed.

End facade.

(** ** The field adapter and the context *)

Section adapter.
Context `{RHF.FormInstance St}.
Variable useWithBaseFieldHelper :
  WithBaseField.BaseFieldProps St → St → WithBaseField.Helper St * St.

(** C8: with a form handler attached, the injected [error] is the façade's
    [fieldState(name).invalid] and the injected [helperText] is the façade's
    [fieldState(name).error], whatever props were passed, since neither is
    ever [undefined] or [null]; without one they are [props.error] and
    [props.helperText].  The field state is read in the state the render has
    reached ([r.2]). *)
Theorem injected_props_prefer_formhandler
    (p : FormHandlerProps) (n : string) (e ht : jsval) (s : St) :
  let attached :=
    {| WithBaseField.Props.name := n;
       WithBaseField.Props.formhandler := Some (useFormHandler p);
       WithBaseField.Props.error := e;
       WithBaseField.Props.helperText := ht |} in
  let plain :=
    {| WithBaseField.Props.name := n;
       WithBaseField.Props.formhandler := None;
       WithBaseField.Props.error := e;
       WithBaseField.Props.helperText := ht |} in
  let r := WithBaseField.withBaseField useWithBaseFieldHelper attached s in
  let r' := WithBaseField.withBaseField useWithBaseFieldHelper plain s in
  WithBaseField.inj_error r.1
    = VBool (invalid (fieldState (useFormHandler p) n r.2))
  ∧ WithBaseField.inj_helperText r.1
    = error (fieldState (useFormHandler p) n r.2)
  ∧ WithBaseField.inj_error r'.1 = e
  ∧ WithBaseField.inj_helperText r'.1 = ht.
Proof.
  cbv zeta. unfold WithBaseField.withBaseField, WithBaseField.WithFormHandlerField.
  destruct (useWithBaseFieldHelper _ s) as [h1 s1].
  destruct (useWithBaseFieldHelper _ s) as [h2 s2].
  unfold WithBaseField.effect_dependency.
  cbn [WithBaseField.Props.formhandler].
  destruct (formState (useFormHandler p) s1) as [st s1'].
  cbn [fst snd WithBaseField.inj_error WithBaseField.inj_helperText].
  unfold WithBaseField.resolve_error, WithBaseField.resolve_helperText.
  cbn [WithBaseField.Props.formhandler WithBaseField.Props.name
       WithBaseField.Props.error WithBaseField.Props.helperText].
  repeat split.
  unfold nullish_coalesce.
  pose proof (error_message_not_nullish
                (RHF.error (RHF.getFieldState n s1'))) as Hn.
  cbn. by rewrite Hn.
Qed.

(** C10: read outside of every provider, the context gives its default
    value, the empty object: the read returns, and the object's
    [formHandler] and [mode] members are [undefined].  Below a provider the
    read gives the provider's value. *)
Theorem useDemoFormContext_outside_provider :
  let ctx := DemoFormContextProvider.useDemoFormContext (St := St) [] in
  ctx = ∅
  ∧ ctx !! "formHandler" = None
  ∧ ctx !! "mode" = None
  ∧ ∀ value providers,
      DemoFormContextProvider.useDemoFormContext (St := St)
        (DemoFormContextProvider.DemoFormContextProvider value providers)
      = value.
Proof. done. Qed.

End adapter.

(** ** The façade over an engine that meets the laws *)

Section lawful.
Context `{FormInstanceLaws St}.
Variable props : FormHandlerProps.

Lemma current_values_unfold (s : St) :
  current_values s = RHF.values_at (RHF.getValues s).2 (RHF.getValues s).1.
Proof. unfold current_values. by destruct (RHF.getValues s). Qed.

Lemma isEqual_contents (s : St) (a b : loc) (x y : jsobj) :
  RHF.values_at s a = Some x → RHF.values_at s b = Some y →
  isEqual s a b = bool_decide (x = y).
Proof.
  intros Ha Hb. unfold isEqual. rewrite Ha, Hb.
  destruct (decide (a = b)) as [->|Hne].
  - rewrite bool_decide_eq_true_2 by done. cbn.
    symmetry. apply bool_decide_eq_true. congruence.
  - by rewrite bool_decide_eq_false_2.
Qed.

(** The record behind [currentState] is the record of current values, read
    in the state [formState()] leaves. *)
Lemma formState_currentState (s : St) :
  let r := formState (useFormHandler props) s in
  RHF.values_at r.2 (currentState r.1) = current_values s.
Proof.
  rewrite formState_eq. cbn.
  destruct (getValues_allocated s) as [cv Hcv].
  rewrite Hcv. rewrite current_values_unfold in Hcv.
  by apply getValues_frame.
Qed.

Lemma formState_hasBeenUpdated (s : St) (dv cv : jsobj) :
  default_values s = Some dv → current_values s = Some cv →
  hasBeenUpdated (formState (useFormHandler props) s).1
  = negb (bool_decide (dv = cv)).
Proof.
  intros Hdv Hcv. rewrite formState_eq. cbn. f_equal.
  apply isEqual_contents.
  - by do 2 apply getValues_frame.
  - rewrite <- current_values_unfold. by rewrite getValues_current.
Qed.

(** [formState()] is a read as far as the form is concerned. *)
Lemma formState_reads (s : St) (n : string) :
  let s' := (formState (useFormHandler props) s).2 in
  current_values s' = current_values s
  ∧ RHF.formState s' = RHF.formState s
  ∧ RHF.getFieldState n s' = RHF.getFieldState n s.
Proof.
  rewrite formState_eq. cbn.
  by rewrite !getValues_current, !getValues_formState, !getValues_fieldState.
Qed.

(** C2: whatever the argument, the last call [clearErrors] makes on the
    engine is the one without argument, after any targeted one; so the errors
    it leaves are those [clearErrors()] leaves, namely none. *)
Theorem clearErrors_always_clears_all (input : option RHF.FieldNames) (s : St) :
  let h := useFormHandler props in
  clearErrors h None s = RHF.clearErrors None s
  ∧ (∀ names, input = Some names →
       clearErrors h input s
       = RHF.clearErrors None (RHF.clearErrors (Some names) s))
  ∧ error_state (clearErrors h input s) = error_state (clearErrors h None s)
  ∧ error_state (clearErrors h input s) = Some ∅.
Proof.
  cbn. repeat split.
  - intros names ->. by destruct names.
  - unfold UseFormHandler.clearErrors. by rewrite !clearErrors_all.
  - unfold UseFormHandler.clearErrors. by rewrite clearErrors_all.
Qed.


End lawful.

Section lawful_writes.
Context `{FormInstanceLaws St}.
Variable props : FormHandlerProps.

(** C5, as the code has it: [resetForm] hands the engine's [reset] the
    supplied values when they are not [null] or [undefined],
    [props.defaultValues] otherwise, and the options unchanged in both cases.
    Afterwards the record behind [formState().currentState] is the record
    used for the reset, provided that record is not empty and the options do
    not ask the engine to keep values or default values. *)
Theorem resetForm_installs_values
    (values : optobj) (options : option jsobj) (s : St) :
  let h := useFormHandler props in
  let used := match values with
              | ArgObj l => l
              | _ => props_defaultValues props
              end in
  resetForm h values options s = RHF.reset used options s
  ∧ (∀ fv, RHF.values_at s used = Some fv →
       fv ≠ ∅ →
       keeps options "keepValues" = false →
       keeps options "keepDefaultValues" = false →
       let r := formState h (resetForm h values options s) in
       RHF.values_at r.2 (currentState r.1) = Some fv).
Proof.
  cbv zeta. split.
  - by destruct values.
  - intros fv Hfv Hne Hv Hdf.
    rewrite (formState_currentState props).
    replace (resetForm (useFormHandler props) values options s)
      with (RHF.reset (match values with
                       | ArgObj l => l
                       | _ => props_defaultValues props
                       end) options s) by (by destruct values).
    by destruct (reset_installs _ options s fv Hfv Hne Hv Hdf).
Qed.


End lawful_writes.

(** ** The demo form, run on the reference engine *)

Module DemoRuns.
Import Demo.

(** C2 at the demo form: the blank name is in error; clearing the errors of
    [lastName] leaves none, as clearing all does. *)
Lemma clearErrors_always_clears_all_witness :
  let s := setFormValue formHandler blank s0 in
  error_state s = Some {[ "name" := required ]}
  ∧ error_state (clearErrors formHandler (Some (RHF.OneName "lastName")) s)
    = error_state (clearErrors formHandler None s).
Proof.
  split.
  - vm_compute. reflexivity.
  - apply (clearErrors_always_clears_all
             props (Some (RHF.OneName "lastName"))
             (setFormValue formHandler blank s0)).
Defined.



(** C3, against the claim as stated: a snapshot holds the errors object
    the form state holds, not a copy.  Here the form state has been read once
    and the blank name rejected; the snapshot taken then shows the error of
    [name].  After Ada is written the same snapshot shows no error: the
    engine removed the entry from the very object the snapshot holds. *)
Lemma debugMode_snapshot_follows_later_writes :
  let rejected := setFormValue formHandler blank (debugMode formHandler s0).2 in
  let taken := debugMode formHandler rejected in
  let later := setFormValue formHandler ada taken.2 in
  dbg_errors taken.1 = RHF.errors (RHF.formState taken.2)
  ∧ RHF.errors_at taken.2 (dbg_errors taken.1) = Some {[ "name" := required ]}
  ∧ RHF.errors_at later (dbg_errors taken.1) = Some ∅
  ∧ RHF.errors_at later (dbg_errors taken.1)
    ≠ RHF.errors_at taken.2 (dbg_errors taken.1).
Proof.
  cbv zeta. repeat split; try (vm_compute; reflexivity).
  intros Heq.
  apply (f_equal (λ o, o ≫= (.!! "name"))) in Heq.
  vm_compute in Heq. discriminate.
Qed.

(** C5, against the claim as stated, after [name] was set to Ada.
    - [resetForm(customValues, { keepValues: true })]: the option is passed
      on and the engine keeps the current values.
    - [resetForm({})]: given an empty record the engine goes back to its
      previous default values.
    - [resetForm({ name: 'Grace' }, { keepDefaultValues: true })]: the engine
      completes the record with the default values it keeps.
    In none of them is [currentState] the record used for the reset. *)
Lemma resetForm_currentState_differs :
  let s := setFormValue formHandler ada DemoVariants.s1 in
  let after values options :=
    let r := formState formHandler (resetForm formHandler values options s) in
    RHF.values_at r.2 (currentState r.1) in
  RHF.values_at s 2%positive = Some customValues
  ∧ after (ArgObj 2%positive) (Some {[ "keepValues" := VBool true ]})
    = Some {[ "name" := VStr "Ada"; "lastName" := VStr "" ]}
  ∧ RHF.values_at s 3%positive = Some ∅
  ∧ after (ArgObj 3%positive) None
    = Some {[ "name" := VStr ""; "lastName" := VStr "" ]}
  ∧ RHF.values_at s 4%positive = Some {[ "name" := VStr "Grace" ]}
  ∧ after (ArgObj 4%positive) (Some {[ "keepDefaultValues" := VBool true ]})
    = Some {[ "name" := VStr "Grace"; "lastName" := VStr "" ]}.
Proof. cbv zeta. repeat split; vm_compute; reflexivity. Qed.

(** C5 at the demo form: without options, [resetForm(customValues)] makes
    [currentState] the custom values. *)
Lemma resetForm_installs_values_witness :
  let s := setFormValue formHandler ada s0 in
  let r := formState formHandler (resetForm formHandler (ArgObj 2%positive) None s) in
  RHF.values_at r.2 (currentState r.1) = Some customValues.
Proof.
  apply (resetForm_installs_values
           props (ArgObj 2%positive) None (setFormValue formHandler ada s0));
    try reflexivity.
  intros Heq. apply (f_equal (.!! "name")) in Heq. discriminate.
Defined.



End DemoRuns.

(** * Further properties of the same code *)

(** ** [useForm]'s argument and [triggerValidation], over any engine *)

Section more_facade.
Context `{RHF.FormInstance St}.
Variable props : FormHandlerProps.

(** X1: in the object handed to [useForm], every member of
    [props.options] wins over the member the hook sets, [defaultValues],
    [mode] and [resolver] included; a member the options do not have is the
    hook's.  Unless the options set it, [mode] is [props.mode], or
    ['onChange'] when that is [undefined] or [null]: it is never either. *)
Theorem useForm_args_options_win :
  let args := UseFormHandler.useForm_args props in
  let own : gmap string RHF.PropValue :=
    {[ "defaultValues" := RHF.PObj (props_defaultValues props);
       "mode" := RHF.PVal (nullish_coalesce (props_mode props) (VStr "onChange"));
       "resolver" := RHF.PResolver (RHF.yupResolver (props_schema props)) ]} in
  (∀ o k v, props_options props = Some o → o !! k = Some v →
     args !! k = Some v)
  ∧ (∀ k, props_options props ≫= (.!! k) = None → args !! k = own !! k)
  ∧ (props_options props ≫= (.!! "mode") = None →
     ∃ m, args !! "mode" = Some (RHF.PVal m)
          ∧ is_nullish m = false
          ∧ m = (if is_nullish (props_mode props) then VStr "onChange"
                 else props_mode props)).
Proof.
  cbv zeta. unfold UseFormHandler.useForm_args, spread.
  split; [| split].
  - intros o k v -> Hk. by rewrite lookup_union, Hk, union_Some_l.
  - intros k Hk. destruct (props_options props) as [o|]; [| done].
    cbn in Hk. by rewrite lookup_union, Hk, (left_id None _).
  - intros Hk. eexists. split; [| split; [| reflexivity]].
    + destruct (props_options props) as [o|]; [| done].
      cbn in Hk. by rewrite lookup_union, Hk, (left_id None _).
    + unfold nullish_coalesce.
      by destruct (is_nullish (props_mode props)) eqn:Hm.
Qed.

(** X3: the three branches of [triggerValidation] make the same single
    engine call: [trigger] with the argument as it came, nothing before and
    nothing after (unlike [clearErrors], which goes on to clear all). *)
Theorem triggerValidation_is_one_trigger
    (input : option RHF.FieldNames) (s : St) :
  triggerValidation (useFormHandler props) input s = RHF.trigger input s.
Proof.
  cbn. unfold UseFormHandler.triggerValidation.
  by destruct input as [[n|ns]|].
Qed.

End more_facade.

(** ** Reads and writes, over an engine that meets the laws *)

Section more_lawful.
Context `{FormInstanceLaws St}.
Variable props : FormHandlerProps.

Lemma formState_default_values (s : St) (dv : jsobj) :
  default_values s = Some dv →
  default_values (formState (useFormHandler props) s).2 = Some dv.
Proof.
  intros Hdv. unfold default_values.
  destruct (formState_reads props s "") as (_ & -> & _).
  rewrite formState_eq. cbn. by do 2 apply getValues_frame.
Qed.

(** X2: when [props.options] carries a [defaultValues] of its own (and no
    [values]), the form starts from those, not from [props.defaultValues]; [resetForm()] without
    arguments nevertheless resets to [props.defaultValues], when that is not
    an empty record.  So when the two records differ, [resetForm()] does not
    bring back the values the form was constructed with. *)
Theorem resetForm_uses_props_defaultValues
    (heap : RHF.heap) (o : gmap string RHF.PropValue) (l : loc)
    (own given : jsobj) :
  props_options props = Some o →
  o !! "defaultValues" = Some (RHF.PObj l) →
  o !! "values" = None →
  heap !! l = Some own →
  RHF.values_at (UseFormHandler.formInstance props heap : St)
    (props_defaultValues props) = Some given →
  given ≠ ∅ →
  let h := useFormHandler props in
  let s : St := UseFormHandler.formInstance props heap in
  current_values s = Some own
  ∧ hasBeenUpdated (formState h s).1 = false
  ∧ current_values (resetForm h ArgUndefined None s) = Some given
  ∧ (given ≠ own →
     current_values (resetForm h ArgUndefined None s) ≠ current_values s).
Proof.
  intros Ho Hl Hval Hown Hgiven Hfull. cbv zeta.
  assert (UseFormHandler.useForm_args props !! "defaultValues"
          = Some (RHF.PObj l)
          ∧ UseFormHandler.useForm_args props !! "values" = None)
    as [Hargs Hnone].
  { unfold UseFormHandler.useForm_args, spread.
    rewrite Ho, !lookup_union, Hl, Hval, union_Some_l.
    by rewrite !(left_id None _). }
  destruct (useForm_defaults _ heap l own Hargs Hown Hnone) as [Hcv Hdv].
  destruct (reset_installs _ None _ given Hgiven Hfull) as [Hc _]; try done.
  unfold UseFormHandler.formInstance in *.
  split; [done | split; [| split]].
  - rewrite (formState_hasBeenUpdated props _ own own) by done.
    by rewrite bool_decide_eq_true_2.
  - done.
  - intros Hne. cbn [resetForm useFormHandler UseFormHandler.resetForm].
    rewrite Hc, Hcv. congruence.
Qed.

(** X4: [formState()] reads.  It leaves the current values, the engine's
    form state and every field state as they were; a second call returns the
    same flags and the same [defaultValues] and [errors], a [currentState]
    holding the same record, and leaves the object the first call returned
    untouched. *)
Theorem formState_twice_agrees (s : St) :
  let h := useFormHandler props in
  let r1 := formState h s in
  let r2 := formState h r1.2 in
  current_values r1.2 = current_values s
  ∧ RHF.formState r1.2 = RHF.formState s
  ∧ (∀ n, fieldState h n r1.2 = fieldState h n s)
  ∧ isValid r2.1 = isValid r1.1
  ∧ defaultValues r2.1 = defaultValues r1.1
  ∧ errors r2.1 = errors r1.1
  ∧ RHF.values_at r2.2 (currentState r2.1)
    = RHF.values_at r1.2 (currentState r1.1)
  ∧ RHF.values_at r2.2 (currentState r1.1)
    = RHF.values_at r1.2 (currentState r1.1)
  ∧ (is_Some (default_values s) → hasBeenUpdated r2.1 = hasBeenUpdated r1.1).
Proof.
  cbv zeta.
  destruct (formState_reads props s "") as (Hcur & Hfs & _).
  repeat split.
  - done.
  - done.
  - intros n. destruct (formState_reads props s n) as (_ & _ & Hn).
    cbn [fieldState useFormHandler]. unfold UseFormHandler.fieldState.
    by rewrite Hn.
  - rewrite (formState_eq props (formState _ s).2). cbn [fst isValid].
    rewrite Hfs. by rewrite formState_eq.
  - rewrite (formState_eq props (formState _ s).2). cbn [fst defaultValues].
    rewrite Hfs. by rewrite formState_eq.
  - rewrite (formState_eq props (formState _ s).2). cbn [fst errors].
    rewrite Hfs. by rewrite formState_eq.
  - by rewrite !(formState_currentState props), Hcur.
  - destruct (getValues_allocated s) as [cv Hcv].
    pose proof (formState_currentState props s) as Hc. cbv zeta in Hc.
    rewrite Hc, Hcv. rewrite Hcv in Hc.
    rewrite formState_eq. cbn [snd]. by do 2 apply getValues_frame.
  - intros [dv Hdv].
    destruct (getValues_allocated s) as [cv Hcv].
    rewrite (formState_hasBeenUpdated props s dv cv) by done.
    rewrite (formState_hasBeenUpdated props _ dv cv); [done | | congruence].
    by apply formState_default_values.
Qed.

(** X5: a debug snapshot is consistent when it is taken.  In the state
    [debugMode()] leaves, its [currentState] holds the current values and its
    [defaultValues] the default values, its [hasBeenUpdated] is true exactly
    when the two records differ, and taking it has not changed the current
    values or the engine's form state. *)
Theorem debugMode_snapshot_consistent (s : St) :
  is_Some (default_values s) →
  let r := debugMode (useFormHandler props) s in
  RHF.values_at r.2 (dbg_currentState r.1) = current_values s
  ∧ RHF.values_at r.2 (dbg_defaultValues r.1) = default_values s
  ∧ (dbg_hasBeenUpdated r.1 = true
     ↔ RHF.values_at r.2 (dbg_currentState r.1)
       ≠ RHF.values_at r.2 (dbg_defaultValues r.1))
  ∧ current_values r.2 = current_values s
  ∧ RHF.formState r.2 = RHF.formState s.
Proof.
  intros [dv Hdv]. cbv zeta. rewrite debugMode_eq. cbv zeta.
  cbn [fst snd dbg_currentState dbg_defaultValues dbg_hasBeenUpdated].
  destruct (getValues_allocated s) as [cv Hcv].
  destruct (formState_reads props s "") as (Hcur & Hfs & _).
  pose proof (formState_currentState props s) as Hc. cbv zeta in Hc.
  assert (RHF.values_at (formState (useFormHandler props) s).2
            (defaultValues (formState (useFormHandler props) s).1)
          = Some dv) as Hd.
  { pose proof (formState_default_values s dv Hdv) as Hd.
    unfold default_values in Hd. rewrite Hfs in Hd.
    rewrite formState_eq. rewrite formState_eq in Hd. exact Hd. }
  rewrite Hc, Hd, Hdv, Hcv.
  rewrite (formState_hasBeenUpdated props s dv cv) by done.
  rewrite negb_true_iff, bool_decide_eq_false.
  repeat split; try done; congruence.
Qed.

End more_lawful.

Section more_writes.
Context `{FormInstanceLaws St}.
Variable props : FormHandlerProps.

(** X6: the options [setFormValue] hands to [setValue] hold every member
    the caller supplied, and besides them only [shouldValidate] and
    [shouldDirty].  A member supplied as [undefined] still overrides: with
    [{ shouldDirty: undefined }] the field's dirty mark stays as it was. *)
Theorem setFormValue_passes_options_on
    (args : SetValueProps) (o : jsobj) (s : St) :
  options args = Some o →
  let h := useFormHandler props in
  let cfg := UseFormHandler.setValue_config args in
  (∀ k v, o !! k = Some v → cfg !! k = Some v)
  ∧ dom cfg = dom o ∪ {[ "shouldValidate"; "shouldDirty" ]}
  ∧ (o !! "shouldDirty" = Some VUndefined →
     isDirty (fieldState h (name args) (setFormValue h args s))
     = isDirty (fieldState h (name args) s)).
Proof.
  intros Ho. cbv zeta. unfold UseFormHandler.setValue_config, spread.
  rewrite Ho. split; [| split].
  - intros k v Hk. by rewrite lookup_union, Hk, union_Some_l.
  - rewrite dom_union_L, dom_insert_L, dom_singleton_L. set_solver.
  - intros Hu.
    cbn [fieldState setFormValue useFormHandler UseFormHandler.fieldState isDirty].
    unfold UseFormHandler.setFormValue.
    apply setValue_not_dirty.
    unfold UseFormHandler.setValue_config, spread, get.
    by rewrite Ho, lookup_union, Hu, union_Some_l.
Qed.

(** X7: writing a field and then writing its default value back undoes
    [hasBeenUpdated], whatever the options of the two calls, when the form
    was at its default values and the field is one of them; in between the
    flag is true when the value written differs from the default. *)
Theorem hasBeenUpdated_round_trip
    (s : St) (dv : jsobj) (n : string) (v d : jsval) (o1 o2 : option jsobj) :
  default_values s = Some dv →
  current_values s = Some dv →
  dv !! n = Some d →
  let h := useFormHandler props in
  let s1 := setFormValue h {| name := n; value := v; options := o1 |} s in
  let s2 := setFormValue h {| name := n; value := d; options := o2 |} s1 in
  hasBeenUpdated (formState h s2).1 = false
  ∧ (v ≠ d → hasBeenUpdated (formState h s1).1 = true).
Proof.
  intros Hdv Hcv Hn. cbv zeta.
  cbn [setFormValue useFormHandler]. unfold UseFormHandler.setFormValue.
  cbn [name value].
  split.
  - rewrite (formState_hasBeenUpdated props _ dv dv).
    + by rewrite bool_decide_eq_true_2.
    + by rewrite !setValue_defaults.
    + rewrite (setValue_current n d _ _ (<[n := v]> dv)).
      * by rewrite insert_insert_eq, insert_id.
      * by apply setValue_current.
  - intros Hne.
    rewrite (formState_hasBeenUpdated props _ dv (<[n := v]> dv)).
    + apply negb_true_iff, bool_decide_eq_false. intros Heq.
      apply Hne. assert (<[n := v]> dv !! n = Some d) as Hl by by rewrite <- Heq.
      rewrite lookup_insert_eq in Hl. congruence.
    + by rewrite setValue_defaults.
    + by apply setValue_current.
Qed.


End more_writes.

(** ** The field adapter, over an engine that meets the laws *)

Section more_adapter.
Context `{FormInstanceLaws St}.
Variable useWithBaseFieldHelper :
  WithBaseField.BaseFieldProps St → St → WithBaseField.Helper St * St.

(** X9: with a form handler attached, a render only reads the form beyond
    what the helper does: the injected [error] and [helperText] are those of
    the state the helper left, and the current values and the engine's form
    state at the end of the render are the helper's.  The injected [value],
    [onChange] and [onBlur] are the helper's.  Without a form handler the
    render ends in the very state the helper left. *)
Theorem render_only_reads
    (p : FormHandlerProps) (n : string) (e ht : jsval) (s : St) :
  let attached :=
    {| WithBaseField.Props.name := n;
       WithBaseField.Props.formhandler := Some (useFormHandler p);
       WithBaseField.Props.error := e;
       WithBaseField.Props.helperText := ht |} in
  let plain :=
    {| WithBaseField.Props.name := n;
       WithBaseField.Props.formhandler := None;
       WithBaseField.Props.error := e;
       WithBaseField.Props.helperText := ht |} in
  let r := WithBaseField.withBaseField useWithBaseFieldHelper attached s in
  let hp := useWithBaseFieldHelper attached s in
  WithBaseField.inj_error r.1
    = VBool (invalid (fieldState (useFormHandler p) n hp.2))
  ∧ WithBaseField.inj_helperText r.1
    = error (fieldState (useFormHandler p) n hp.2)
  ∧ current_values r.2 = current_values hp.2
  ∧ RHF.formState r.2 = RHF.formState hp.2
  ∧ WithBaseField.inj_value r.1 = WithBaseField.value hp.1
  ∧ WithBaseField.inj_onChange r.1 = WithBaseField.handleChange hp.1
  ∧ WithBaseField.inj_onBlur r.1 = WithBaseField.handleBlur hp.1
  ∧ (WithBaseField.withBaseField useWithBaseFieldHelper plain s).2
    = (useWithBaseFieldHelper plain s).2.
Proof.
  cbv zeta.
  unfold WithBaseField.withBaseField, WithBaseField.WithFormHandlerField.
  destruct (useWithBaseFieldHelper _ s) as [h1 s1].
  destruct (useWithBaseFieldHelper _ s) as [h2 s2].
  unfold WithBaseField.effect_dependency.
  cbn [WithBaseField.Props.formhandler].
  destruct (formState_reads p s1 n) as (Hcur & Hfs & Hn).
  destruct (formState (useFormHandler p) s1) as [st s1'].
  cbn [fst snd] in *.
  cbn [fst snd WithBaseField.inj_error WithBaseField.inj_helperText
       WithBaseField.inj_value WithBaseField.inj_onChange
       WithBaseField.inj_onBlur].
  unfold WithBaseField.resolve_error, WithBaseField.resolve_helperText.
  cbn [WithBaseField.Props.formhandler WithBaseField.Props.name
       WithBaseField.Props.error WithBaseField.Props.helperText].
  cbn [fieldState useFormHandler]. unfold UseFormHandler.fieldState.
  rewrite Hn. cbn [invalid error].
  repeat split; try done.
  unfold nullish_coalesce.
  by rewrite (error_message_not_nullish (RHF.error (RHF.getFieldState n s1))).
Qed.

Lemma effect_dependency_attached
    (p : FormHandlerProps) (n : string) (e ht : jsval) (s : St) :
  WithBaseField.effect_dependency
    {| WithBaseField.Props.name := n;
       WithBaseField.Props.formhandler := Some (useFormHandler p);
       WithBaseField.Props.error := e;
       WithBaseField.Props.helperText := ht |} s
  = (Some (RHF.getValues s).1, (formState (useFormHandler p) s).2).
Proof.
  unfold WithBaseField.effect_dependency.
  cbn [WithBaseField.Props.formhandler].
  pose proof (formState_eq p s) as E. cbv zeta in E.
  destruct (formState (useFormHandler p) s) as [st s'].
  by injection E as -> ->.
Qed.

(** X10: the dependency of the wrapper's effect is the object [getValues()]
    returns, or [undefined] without a form handler.  With an engine whose
    [getValues()] returns a new object at each call, the dependency of a
    render is never the dependency of an earlier one while that object is
    still there; so the effect runs again after every render. *)
Theorem effect_dependency_is_new_each_render
    (p : FormHandlerProps) (n : string) (e ht : jsval) (s t : St) (d : loc) :
  (∀ u : St, RHF.values_at u (RHF.getValues u).1 = None) →
  let attached :=
    {| WithBaseField.Props.name := n;
       WithBaseField.Props.formhandler := Some (useFormHandler p);
       WithBaseField.Props.error := e;
       WithBaseField.Props.helperText := ht |} in
  (WithBaseField.effect_dependency attached s).1 = Some d →
  is_Some (RHF.values_at t d) →
  d = (RHF.getValues s).1
  ∧ is_Some (RHF.values_at (WithBaseField.effect_dependency attached s).2 d)
  ∧ (WithBaseField.effect_dependency attached t).1 ≠ Some d.
Proof.
  intros Hnew. cbv zeta. rewrite !effect_dependency_attached. cbn [fst snd].
  intros [= <-] Ht. split; [done | split].
  - destruct (getValues_allocated s) as [cv Hcv].
    rewrite current_values_unfold in Hcv.
    exists cv. rewrite formState_eq. cbn [snd]. by apply getValues_frame.
  - intros [= Heq]. destruct Ht as [o Ho].
    rewrite <- Heq, Hnew in Ho. discriminate.
Qed.

End more_adapter.

(** ** The further properties, run on the reference engine *)

Module MoreRuns.
Import Demo DemoVariants.

(** The reference engine's [getValues()] returns a new object each time. *)
Lemma getValues_is_new (u : RefEngine.state) :
  RHF.values_at u (RHF.getValues u).1 = None.
Proof. apply RefEngineFacts.fresh_values_unused. Qed.

(** X2 at the demo form constructed with
    [options: { defaultValues: customValues }]. *)
Lemma resetForm_uses_props_defaultValues_witness :
  let h : FormHandler RefEngine.state := useFormHandler props_with_own_defaults in
  let s := UseFormHandler.formInstance props_with_own_defaults heap0 in
  current_values s = Some customValues
  ∧ hasBeenUpdated (formState h s).1 = false
  ∧ current_values (resetForm h ArgUndefined None s) = Some defaultValues
  ∧ current_values (resetForm h ArgUndefined None s) ≠ current_values s.
Proof.
  destruct (resetForm_uses_props_defaultValues
              (St := RefEngine.state) props_with_own_defaults heap0
              {[ "defaultValues" := RHF.PObj 2%positive ]} 2%positive
              customValues defaultValues)
    as (Hstart & Hflag & Hreset & Hdiffer); try reflexivity.
  { intros Heq. apply (f_equal (.!! "name")) in Heq. discriminate. }
  repeat split; try assumption.
  apply Hdiffer. intros Heq.
  apply (f_equal (.!! "name")) in Heq. vm_compute in Heq. discriminate.
Defined.

(** X4 at the demo form after Ada was written. *)
Lemma formState_twice_agrees_witness :
  let s := setFormValue formHandler ada s0 in
  let r1 := formState formHandler s in
  let r2 := formState formHandler r1.2 in
  current_values r1.2 = current_values s
  ∧ hasBeenUpdated r2.1 = hasBeenUpdated r1.1.
Proof.
  destruct (formState_twice_agrees (St := RefEngine.state) props
              (setFormValue formHandler ada s0))
    as (Hcur & _ & _ & _ & _ & _ & _ & _ & Hflag).
  split; [exact Hcur |].
  apply Hflag. vm_compute. eexists. reflexivity.
Defined.

(** X5 at the demo form after Ada was written. *)
Lemma debugMode_snapshot_consistent_witness :
  let s := setFormValue formHandler ada s0 in
  let r := debugMode formHandler s in
  RHF.values_at r.2 (dbg_currentState r.1) = current_values s
  ∧ RHF.values_at r.2 (dbg_defaultValues r.1) = default_values s.
Proof.
  destruct (debugMode_snapshot_consistent (St := RefEngine.state) props
              (setFormValue formHandler ada s0))
    as (Hcur & Hdef & _).
  - vm_compute. eexists. reflexivity.
  - split; [exact Hcur | exact Hdef].
Defined.

(** X6 at the demo form: [{ shouldDirty: undefined }] leaves [name] clean. *)
Lemma setFormValue_passes_options_on_witness :
  isDirty (fieldState formHandler "name"
             (setFormValue formHandler ada_undefined_flag s0))
  = isDirty (fieldState formHandler "name" s0).
Proof.
  apply (setFormValue_passes_options_on (St := RefEngine.state) props
           ada_undefined_flag {[ "shouldDirty" := VUndefined ]} s0);
    reflexivity.
Defined.

(** X7 at the demo form: Ada written into [name], then the blank default. *)
Lemma hasBeenUpdated_round_trip_witness :
  hasBeenUpdated
    (formState formHandler
       (setFormValue formHandler blank (setFormValue formHandler ada s0))).1
  = false.
Proof.
  apply (hasBeenUpdated_round_trip (St := RefEngine.state) props s0
           defaultValues "name" (VStr "Ada") (VStr "") None None);
    vm_compute; reflexivity.
Defined.


(** X9 at the [name] field of the demo form, after the blank name was
    rejected. *)
Lemma render_only_reads_witness :
  let s := setFormValue formHandler blank s0 in
  let r := WithBaseField.withBaseField helper name_field s in
  WithBaseField.inj_error r.1 = VBool true
  ∧ WithBaseField.inj_helperText r.1 = VStr "This field is required"
  ∧ current_values r.2 = current_values s.
Proof.
  destruct (render_only_reads (St := RefEngine.state) helper props "name"
              VUndefined (VStr "Your first name")
              (setFormValue formHandler blank s0))
    as (Herr & Htext & Hcur & _).
  split; [| split].
  - etrans; [exact Herr |]. vm_compute. reflexivity.
  - etrans; [exact Htext |]. vm_compute. reflexivity.
  - exact Hcur.
Defined.

(** X10 at the [name] field of the demo form: two renders in a row. *)
Lemma effect_dependency_is_new_each_render_witness :
  let first := WithBaseField.effect_dependency name_field s0 in
  (WithBaseField.effect_dependency name_field first.2).1 ≠ first.1.
Proof.
  cbv zeta.
  destruct (effect_dependency_is_new_each_render (St := RefEngine.state)
              props "name" VUndefined (VStr "Your first name") s0
              (WithBaseField.effect_dependency name_field s0).2
              (RHF.getValues s0).1 getValues_is_new)
    as (_ & _ & Hne).
  - vm_compute. reflexivity.
  - vm_compute. by eexists.
  - intros Heq. apply Hne. etrans; [exact Heq |]. vm_compute. reflexivity.
Defined.

End MoreRuns.
